(** * Pyrlang.gen: decoding of [gen:call] envelopes and the two replies

    A shallow embedding of [Pyrlang/gen.py].  Python values are an
    inductive type, a Python call either returns or raises, and the node
    registry the replies go through is a finite map from node names to
    nodes that record what they were asked to send. *)

From Stdlib Require Import ZArith.
From Stdlib.Strings Require Import Ascii String Byte.
From stdpp Require Import base option list strings gmap.

Set Warnings "-register-all".
Local Open Scope string_scope.

(** ** Python values *)

(** Modelled from the spec: the classes of [Pyrlang.Term], which [gen.py]
    imports and which is not part of the source at hand.  The spec gives
    the symbolic literal ([Term.Atom]) a textual accessor, the compound
    term ([Term.List]) an element-list accessor, and the sender
    ([Term.Pid]) a node affiliation; [gen.py] reads them as the attributes
    [text_], [elements_] and [node_].  Nothing else is assumed of these
    classes: they are neither sized nor iterable.

    Next to them stand the values of Python itself that an envelope is
    made of: [None], [int], [str], [bytes], [tuple] and [list].  A [str] is
    the sequence of its characters. *)
Inductive value : Type :=
| VNone
| VInt (z : Z)
| VStr (s : string)
| VBytes (bs : list byte)
| VTuple (items : list value)
| VList (items : list value)
| VAtom (text_ : string)
| VTermList (elements_ : list value) (tail_ : value)
| VPid (node_ : value) (id_ : Z) (serial_ : Z) (creation_ : Z)
| VReference (node_ : value) (creation_ : Z) (id_ : list byte).

(** ** Outcomes of a Python call *)

Inductive exn : Type :=
| IndexError
| ValueError
| TypeError
| AttributeError
| KeyError.

Inductive outcome (A : Type) : Type :=
| Return (a : A)
| Raise (e : exn).
Arguments Return {A} a.
Arguments Raise {A} e.

#[global] Instance outcome_ret : MRet outcome := fun A a => Return a.
#[global] Instance outcome_bind : MBind outcome := fun A B f m =>
  match m with
  | Return a => f a
  | Raise e => Raise e
  end.

(** ** Builtins used by [gen.py] *)

(** [isinstance(v, Term.Atom)] *)
Definition isinstance_Atom (v : value) : bool :=
  match v with
  | VAtom _ => true
  | _ => false
  end.

(** [isinstance(v, list)] *)
Definition isinstance_list (v : value) : bool :=
  match v with
  | VList _ => true
  | _ => false
  end.

(** [t[0]] on a tuple: [IndexError] when it is empty. *)
Definition tuple_getitem0 (items : list value) : outcome value :=
  match items with
  | [] => Raise IndexError
  | x :: _ => Return x
  end.

(** [v.name]: [AttributeError] when the object has no such attribute. *)
Definition getattr (v : value) (name : string) : outcome value :=
  match v with
  | VAtom t =>
      if String.eqb name "text_" then Return (VStr t) else Raise AttributeError
  | VTermList es tl =>
      if String.eqb name "elements_" then Return (VList es)
      else if String.eqb name "tail_" then Return tl
      else Raise AttributeError
  | VPid n i s c =>
      if String.eqb name "node_" then Return n
      else if String.eqb name "id_" then Return (VInt i)
      else if String.eqb name "serial_" then Return (VInt s)
      else if String.eqb name "creation_" then Return (VInt c)
      else Raise AttributeError
  | VReference n c i =>
      if String.eqb name "node_" then Return n
      else if String.eqb name "creation_" then Return (VInt c)
      else if String.eqb name "id_" then Return (VBytes i)
      else Raise AttributeError
  | _ => Raise AttributeError
  end.

(** What iterating over [v] yields; [TypeError] when [v] is not iterable. *)
Definition py_iter (v : value) : outcome (list value) :=
  match v with
  | VTuple xs | VList xs => Return xs
  | VStr s =>
      Return (map (fun c => VStr (String c EmptyString)) (list_ascii_of_string s))
  | VBytes bs => Return (map (fun b => VInt (Z.of_N (Byte.to_N b))) bs)
  | _ => Raise TypeError
  end.

(** [len(v)]; [TypeError] when [v] has no length. *)
Definition py_len (v : value) : outcome nat :=
  match v with
  | VTuple xs | VList xs => Return (length xs)
  | VStr s => Return (String.length s)
  | VBytes bs => Return (length bs)
  | _ => Raise TypeError
  end.

(** [(a, b) = v] *)
Definition unpack2 (v : value) : outcome (value * value) :=
  xs ← py_iter v;
  match xs with
  | [a; b] => Return (a, b)
  | _ => Raise ValueError
  end.

(** [(a, b, c) = v] *)
Definition unpack3 (v : value) : outcome (value * value * value) :=
  xs ← py_iter v;
  match xs with
  | [a; b; c] => Return (a, b, c)
  | _ => Raise ValueError
  end.

(** [(a, b, c, d, e) = v] *)
Definition unpack5 (v : value)
  : outcome (value * value * value * value * value) :=
  xs ← py_iter v;
  match xs with
  | [a; b; c; d; e] => Return (a, b, c, d, e)
  | _ => Raise ValueError
  end.

(** [v != s] for a [str] literal [s]: only a [str] with the same text is
    equal to it. *)
Definition py_ne_str (v : value) (s : string) : bool :=
  match v with
  | VStr t => negb (String.eqb t s)
  | _ => true
  end.

(** ** The descriptors *)

(** [GenBase]: where a reply goes. *)
Record GenBase : Type := mkGenBase {
  node_name_ : string;
  sender_ : value;
  ref_ : value
}.

(** [GenIncomingMessage(GenBase)] *)
Record GenIncomingMessage : Type := mkGenIncomingMessage {
  gim_base : GenBase;
  message_ : value
}.

(** [GenIncomingCall(GenBase)] *)
Record GenIncomingCall : Type := mkGenIncomingCall {
  gic_base : GenBase;
  mod_ : value;
  fun_ : value;
  args_ : value;
  group_leader_ : value
}.

(** [GenBase.__init__(self, sender, ref, node_name)] *)
Definition GenBase_init (sender ref : value) (node_name : string) : GenBase :=
  {| node_name_ := node_name; sender_ := sender; ref_ := ref |}.

(** [GenIncomingMessage(sender=, ref=, message=, node_name=)] *)
Definition GenIncomingMessage_new (sender ref message : value)
    (node_name : string) : GenIncomingMessage :=
  {| gim_base := GenBase_init sender ref node_name; message_ := message |}.

(** [GenIncomingCall(mod=, fun=, args=, group_leader=, sender=, ref=,
    node_name=)].  Every parameter of [__init__] is required, none has a
    default value.  The six values are always passed; [node_name] is [None]
    for a call that leaves the keyword out, and such a call raises
    [TypeError] (missing required argument) before the body runs. *)
Definition GenIncomingCall_new (m f args group_leader sender ref : value)
    (node_name : option string) : outcome GenIncomingCall :=
  match node_name with
  | None => Raise TypeError
  | Some name =>
      Return {| gic_base := GenBase_init sender ref name;
                mod_ := m;
                fun_ := f;
                args_ := args;
                group_leader_ := group_leader |}
  end.

(** [GenIncomingCall.get_args] *)
Definition get_args (self : GenIncomingCall) : outcome value :=
  if isinstance_list (args_ self) then Return (args_ self)
  else getattr (args_ self) "elements_".

(** [GenIncomingCall.get_mod_str] *)
Definition get_mod_str (self : GenIncomingCall) : outcome value :=
  getattr (mod_ self) "text_".

(** [GenIncomingCall.get_fun_str] *)
Definition get_fun_str (self : GenIncomingCall) : outcome value :=
  getattr (fun_ self) "text_".

(** ** The decoders *)

(** What a decoder returns: a [str] that says why the message was turned
    down, or a descriptor object. *)
Inductive parsed (D : Type) : Type :=
| Rejected (why : string)
| Descriptor (d : D).
Arguments Rejected {D} why.
Arguments Descriptor {D} d.

(** [not isinstance(msg[0], Term.Atom) or msg[0].text_ != '$gen_call'],
    for a tuple [msg] with the elements [items]. *)
Definition not_gen_call_tag (items : list value) : outcome bool :=
  a ← tuple_getitem0 items;
  if negb (isinstance_Atom a) then Return true
  else
    b ← tuple_getitem0 items;
    t ← getattr b "text_";
    Return (py_ne_str t "$gen_call").

Section Decoders.

(** Python's [str(v)].  It goes through the [__str__] of the class of
    [v], which for the [Term] classes is outside the source at hand. *)
Variable py_str : value -> string.

(** [parse_gen_call(msg)].  [type(msg) != tuple] is the last branch of the
    match: only a [VTuple] is of type [tuple]. *)
Definition parse_gen_call (msg : value) : outcome (parsed GenIncomingCall) :=
  match msg with
  | VTuple items =>
      bad ← not_gen_call_tag items;
      if (bad : bool) then
        Return (Rejected "Only {$gen_call, _, _} messages allowed")
      else
        '(_, _sender_mref, _call_mfa_gl) ← unpack3 msg;
        '(msender, mref) ← unpack2 _sender_mref;
        n ← py_len _call_mfa_gl;
        if negb (Nat.eqb n 5) then
          Return (Rejected "Expecting a 5-tuple (with a 'call' atom)")
        else
          '(call, m, f, args, group_leader) ← unpack5 _call_mfa_gl;
          if negb (isinstance_Atom m) then
            Return (Rejected ("Module must be an atom: " +:+ py_str m))
          else if negb (isinstance_Atom f) then
            Return (Rejected ("Function must be an atom: " +:+ py_str f))
          else
            d ← GenIncomingCall_new m f args group_leader msender mref None;
            Return (Descriptor d)
  | _ => Return (Rejected "Only {tuple} messages allowed")
  end.

End Decoders.

(** [parse_gen_message(msg, node_name)] *)
Definition parse_gen_message (msg : value) (node_name : string)
  : outcome (parsed GenIncomingMessage) :=
  match msg with
  | VTuple items =>
      bad ← not_gen_call_tag items;
      if (bad : bool) then
        Return (Rejected "Only {$gen_call, _, _} messages allowed")
      else
        '(_, _sender_mref, gcmsg) ← unpack3 msg;
        '(msender, mref) ← unpack2 _sender_mref;
        Return (Descriptor (GenIncomingMessage_new msender mref gcmsg node_name))
  | _ => Return (Rejected "Only {tuple} messages allowed")
  end.

(** ** The routing layer and the two replies *)

(** Modelled from the spec: [Pyrlang.node.Node], which the replies import
    and which is not part of the source at hand.  The spec gives the
    routing layer a registry of nodes by node identifier
    ([Node.all_nodes]), a delivery primitive [send(sender, receiver,
    message)] and a directive primitive [dist_command(receiver_node,
    message)].  A node is modelled by the requests it has been handed,
    oldest first; every registry entry is a node of its own. *)
Inductive request : Type :=
| SendReq (sender receiver message : value)
| DistCommandReq (receiver_node message : value).

Abbreviation registry := (gmap string (list request)).

(** Code that reads and updates the registry and may raise.  The registry
    is as it was left by the statements that ran before the exception. *)
Definition effect (A : Type) : Type := registry -> outcome A * registry.

#[global] Instance effect_ret : MRet effect := fun A a w => (Return a, w).
#[global] Instance effect_bind : MBind effect := fun A B f m w =>
  match m w with
  | (Return a, w') => f a w'
  | (Raise e, w') => (Raise e, w')
  end.

(** A computation without effect on the registry. *)
Definition lift {A : Type} (m : outcome A) : effect A := fun w => (m, w).

(** [Node.all_nodes[name]]: [KeyError] when no node has this name.  The
    node object is referred to by the name it is registered under. *)
Definition all_nodes_getitem (name : string) : effect string := fun w =>
  match w !! name with
  | Some _ => (Return name, w)
  | None => (Raise KeyError, w)
  end.

(** [n.send(sender=, receiver=, message=)] *)
Definition Node_send (n : string) (sender receiver message : value)
  : effect unit := fun w =>
  (Return tt, alter (fun reqs => (reqs ++ [SendReq sender receiver message])%list) n w).

(** [n.dist_command(receiver_node=, message=)] *)
Definition Node_dist_command (n : string) (receiver_node message : value)
  : effect unit := fun w =>
  (Return tt, alter (fun reqs => (reqs ++ [DistCommandReq receiver_node message])%list)
     n w).

(** [GenBase.reply(self, local_pid, result)] *)
Definition reply (self : GenBase) (local_pid result : value) : effect unit :=
  n ← all_nodes_getitem (node_name_ self);
  Node_send n local_pid (sender_ self) (VTuple [ref_ self; result]).

(** [GenBase.reply_exit(self, local_pid, reason)] *)
Definition reply_exit (self : GenBase) (local_pid reason : value) : effect unit :=
  let reply :=
    VTuple [VStr "monitor_p_exit"; local_pid; sender_ self; ref_ self; reason] in
  n ← all_nodes_getitem (node_name_ self);
  node ← lift (getattr (sender_ self) "node_");
  text ← lift (getattr node "text_");
  Node_dist_command n text reply.

(** ** The rendering of a plain message *)

Section Rendering.

(** Python's [str(v)], as for the decoders. *)
Variable py_str : value -> string.

(** [GenIncomingMessage.__str__] *)
Definition GenIncomingMessage_str (self : GenIncomingMessage) : string :=
  ("GenIncomingMessage(" +:+ py_str (message_ self)) +:+ ")".

End Rendering.

(** ** Sample values *)

(** One rendering to run the decoders with: the text of a [str] and of an
    atom, a fixed text for every other value. *)
Definition str_sample (v : value) : string :=
  match v with
  | VStr s => s
  | VAtom t => t
  | _ => "<term>"
  end.

Definition gen_call_tag : value := VAtom "$gen_call".
Definition pid_sample : value := VPid (VAtom "erl@127.0.0.1") 64 0 1.
Definition ref_sample : value := VReference (VAtom "erl@127.0.0.1") 1 [x00; x01; x02].

(** [{'$gen_call', {From, Ref}, {call, erlang, node, [], GroupLeader}}] *)
Definition call_envelope_sample : value :=
  VTuple [gen_call_tag; VTuple [pid_sample; ref_sample];
          VTuple [VAtom "call"; VAtom "erlang"; VAtom "node"; VList []; pid_sample]].

(** The registry of a Python node [py@127.0.0.1] that has sent nothing. *)
Definition registry_sample : registry := {[ "py@127.0.0.1" := [] ]}.

Definition context_sample : GenBase :=
  GenBase_init pid_sample ref_sample "py@127.0.0.1".

(** Closes a goal on one decoder from the hypothesis [H] that the other
    one failed, once both have been brought to the same failing step. *)
Ltac same_failure H :=
  cbn in H |- *; solve [discriminate H | injection H as <-; reflexivity].

(** * Properties *)

(** The sample call envelope passes every check of [parse_gen_call], and
    the call ends in [TypeError]. *)
Example call_envelope_sample_raises :
  parse_gen_call str_sample call_envelope_sample = Raise TypeError.
Proof. reflexivity. Qed.

(** With the node name passed, the constructor returns the descriptor. *)
Example GenIncomingCall_new_with_node_name :
  GenIncomingCall_new (VAtom "erlang") (VAtom "node") (VList []) pid_sample
    pid_sample ref_sample (Some "py@127.0.0.1") =
  Return {| gic_base := context_sample;
            mod_ := VAtom "erlang";
            fun_ := VAtom "node";
            args_ := VList [];
            group_leader_ := pid_sample |}.
Proof. reflexivity. Qed.

(** ** The tag check *)

Lemma not_gen_call_tag_nil : not_gen_call_tag [] = Raise IndexError.
Proof. reflexivity. Qed.

Lemma not_gen_call_tag_ok (rest : list value) :
  not_gen_call_tag (gen_call_tag :: rest) = Return false.
Proof. reflexivity. Qed.

Lemma not_gen_call_tag_other (x : value) (rest : list value) :
  x ≠ gen_call_tag -> not_gen_call_tag (x :: rest) = Return true.
Proof.
  intros Hx. destruct x; try reflexivity.
  cbn. destruct (String.eqb_spec text_ "$gen_call") as [-> | _]; [|reflexivity].
  now destruct Hx.
Qed.

(** The check lets exactly the tuples through that start with the atom. *)
Lemma not_gen_call_tag_false (items : list value) :
  not_gen_call_tag items = Return false ->
  exists rest, items = gen_call_tag :: rest.
Proof.
  destruct items as [|x rest]; [discriminate|].
  intros H. exists rest. f_equal.
  destruct x; try discriminate H.
  cbn in H. destruct (String.eqb_spec text_ "$gen_call") as [-> | _];
    [reflexivity | discriminate H].
Qed.

(** ** What the decoders do with an envelope *)

Section DecoderProperties.

Variable py_str : value -> string.
Variable node_name : string.

(** Past the tag check the decoders only destructure. *)
Lemma parse_gen_message_tagged (rest : list value) :
  parse_gen_message (VTuple (gen_call_tag :: rest)) node_name =
  match rest with
  | [sender_mref; gcmsg] =>
      '(msender, mref) ← unpack2 sender_mref;
      Return (Descriptor (GenIncomingMessage_new msender mref gcmsg node_name))
  | _ => Raise ValueError
  end.
Proof. destruct rest as [|? [|? [|? ?]]]; reflexivity. Qed.

Lemma parse_gen_message_inv (msg : value) (d : GenIncomingMessage) :
  parse_gen_message msg node_name = Return (Descriptor d) ->
  exists sender_mref gcmsg msender mref,
    msg = VTuple [gen_call_tag; sender_mref; gcmsg] /\
    unpack2 sender_mref = Return (msender, mref) /\
    d = GenIncomingMessage_new msender mref gcmsg node_name.
Proof.
  destruct msg as [| | | |items| | | | |]; try discriminate.
  intros H.
  assert (exists rest, items = gen_call_tag :: rest) as [rest ->].
  { apply not_gen_call_tag_false.
    unfold parse_gen_message in H.
    destruct (not_gen_call_tag items) as [[|]|]; done. }
  rewrite parse_gen_message_tagged in H.
  destruct rest as [|sr [|body [|? ?]]]; try discriminate H.
  destruct (unpack2 sr) as [[s r]|] eqn:Hsr; try discriminate H.
  exists sr, body, s, r. cbn in H. now inversion H.
Qed.

(** The exceptions of [parse_gen_message]: [IndexError] from [msg[0]],
    [ValueError] and [TypeError] from the two destructurings. *)
Lemma parse_gen_message_raises (msg : value) (e : exn) :
  parse_gen_message msg node_name = Raise e ->
  e = IndexError \/ e = ValueError \/ e = TypeError.
Proof.
  intros H. destruct msg as [| | | |items| | | | |]; try discriminate H.
  destruct items as [|x rest]; [injection H as <-; auto|].
  destruct (not_gen_call_tag (x :: rest)) as [[|]|] eqn:Htag.
  - unfold parse_gen_message in H. rewrite Htag in H. discriminate H.
  - apply not_gen_call_tag_false in Htag as [rest' Heq].
    injection Heq as -> ->. rewrite parse_gen_message_tagged in H.
    destruct rest' as [|sr [|body [|? ?]]]; try (injection H as <-; auto).
    unfold unpack2 in H. destruct (py_iter sr) as [xs|e'] eqn:Hiter.
    + destruct xs as [|a [|b [|? ?]]]; cbn in H;
        solve [discriminate H | injection H as <-; auto].
    + cbn in H. injection H as <-.
      destruct sr; cbn in Hiter; solve [discriminate Hiter | injection Hiter as <-; auto].
  - destruct x; discriminate Htag.
Qed.

Lemma parse_gen_call_tagged (rest : list value) :
  parse_gen_call py_str (VTuple (gen_call_tag :: rest)) =
  match rest with
  | [sender_mref; call_mfa_gl] =>
      '(msender, mref) ← unpack2 sender_mref;
      n ← py_len call_mfa_gl;
      if negb (Nat.eqb n 5) then
        Return (Rejected "Expecting a 5-tuple (with a 'call' atom)")
      else
        '(call, m, f, args, group_leader) ← unpack5 call_mfa_gl;
        if negb (isinstance_Atom m) then
          Return (Rejected ("Module must be an atom: " +:+ py_str m))
        else if negb (isinstance_Atom f) then
          Return (Rejected ("Function must be an atom: " +:+ py_str f))
        else
          d ← GenIncomingCall_new m f args group_leader msender mref None;
          Return (Descriptor d)
  | _ => Raise ValueError
  end.
Proof. destruct rest as [|? [|? [|? ?]]]; reflexivity. Qed.

(** A body that has a length other than five is turned down by
    [parse_gen_call] for its arity. *)
Lemma parse_gen_call_arity (sr s r body : value) (n : nat) :
  unpack2 sr = Return (s, r) ->
  py_len body = Return n ->
  n ≠ 5 ->
  parse_gen_call py_str (VTuple [gen_call_tag; sr; body]) =
  Return (Rejected "Expecting a 5-tuple (with a 'call' atom)").
Proof.
  intros Hsr Hlen Hn. rewrite parse_gen_call_tagged, Hsr, Hlen. cbn.
  destruct (Nat.eqb_spec n 5); [contradiction | reflexivity].
Qed.

(** No path of [parse_gen_call] hands a descriptor back: the only one
    that builds it leaves [node_name] out. *)
Lemma parse_gen_call_no_descriptor (msg : value) (d : GenIncomingCall) :
  parse_gen_call py_str msg ≠ Return (Descriptor d).
Proof.
  destruct msg as [| | | |items| | | | |]; try discriminate.
  intros H.
  assert (exists rest, items = gen_call_tag :: rest) as [rest ->].
  { apply not_gen_call_tag_false.
    unfold parse_gen_call in H.
    destruct (not_gen_call_tag items) as [[|]|]; done. }
  rewrite parse_gen_call_tagged in H.
  destruct rest as [|sr [|body [|? ?]]]; try discriminate H.
  destruct (unpack2 sr) as [[s r]|]; try discriminate H.
  destruct (py_len body) as [n|]; try discriminate H.
  cbn in H. destruct (negb (n =? 5)%nat); try discriminate H.
  destruct (unpack5 body) as [[[[[c m] f] a] g]|]; try discriminate H.
  cbn in H. destruct (negb (isinstance_Atom m)); try discriminate H.
  destruct (negb (isinstance_Atom f)); discriminate H.
Qed.

(** C9: an envelope that has a first element, and not the atom
    ['$gen_call'] for it, is turned down with a string by both decoders,
    whatever follows the first element: a tuple for its tag, and any other
    sequence, which is no tuple, for that. *)
Theorem wrong_tag_rejected (msg x : value) (rest : list value) :
  py_iter msg = Return (x :: rest) ->
  x ≠ gen_call_tag ->
  let why :=
    match msg with
    | VTuple _ => "Only {$gen_call, _, _} messages allowed"
    | _ => "Only {tuple} messages allowed"
    end in
  parse_gen_call py_str msg = Return (Rejected why) /\
  parse_gen_message msg node_name = Return (Rejected why).
Proof.
  intros Hiter Hx.
  destruct msg as [| | | |items| | | | |]; try (split; reflexivity).
  injection Hiter as ->. cbn zeta.
  unfold parse_gen_call, parse_gen_message.
  rewrite (not_gen_call_tag_other x rest Hx). split; reflexivity.
Qed.

(** C1: on a well-formed call envelope
    [('$gen_call', (S, R), (call, Mod, Fun, Args, GL))] with atoms [Mod]
    and [Fun], [parse_gen_call] passes every check and then raises
    [TypeError] where it builds the [GenIncomingCall], instead of
    returning it. *)
Theorem parse_gen_call_wellformed_raises (s r call args gl : value)
    (m f : string) :
  parse_gen_call py_str
    (VTuple [gen_call_tag; VTuple [s; r];
             VTuple [call; VAtom m; VAtom f; args; gl]]) = Raise TypeError.
Proof. reflexivity. Qed.

(** C2: the decoders do raise.  The empty tuple raises [IndexError] at
    [msg[0]]; a tagged tuple of one, two or more than three elements
    raises [ValueError] where it is destructured into three; a tagged
    triple whose second element does not hold exactly two values raises
    [ValueError], and [TypeError] when that element is not iterable. *)
Theorem decoders_raise_on_malformed_shape :
  (parse_gen_call py_str (VTuple []) = Raise IndexError /\
   parse_gen_message (VTuple []) node_name = Raise IndexError) /\
  (parse_gen_call py_str (VTuple [gen_call_tag]) = Raise ValueError /\
   parse_gen_message (VTuple [gen_call_tag]) node_name = Raise ValueError) /\
  (forall a : value,
     parse_gen_call py_str (VTuple [gen_call_tag; a]) = Raise ValueError /\
     parse_gen_message (VTuple [gen_call_tag; a]) node_name = Raise ValueError) /\
  (forall (a b c : value) (more : list value),
     parse_gen_call py_str (VTuple (gen_call_tag :: a :: b :: c :: more)) =
       Raise ValueError /\
     parse_gen_message (VTuple (gen_call_tag :: a :: b :: c :: more)) node_name =
       Raise ValueError) /\
  (forall a body : value,
     parse_gen_call py_str (VTuple [gen_call_tag; VTuple [a]; body]) =
       Raise ValueError /\
     parse_gen_message (VTuple [gen_call_tag; VTuple [a]; body]) node_name =
       Raise ValueError) /\
  (forall (a b c body : value) (more : list value),
     parse_gen_call py_str
       (VTuple [gen_call_tag; VTuple (a :: b :: c :: more); body]) =
       Raise ValueError /\
     parse_gen_message
       (VTuple [gen_call_tag; VTuple (a :: b :: c :: more); body]) node_name =
       Raise ValueError) /\
  (forall (z : Z) (body : value),
     parse_gen_call py_str (VTuple [gen_call_tag; VInt z; body]) =
       Raise TypeError /\
     parse_gen_message (VTuple [gen_call_tag; VInt z; body]) node_name =
       Raise TypeError).
Proof. repeat split; reflexivity. Qed.

(** C3: on [('$gen_call', (S, R), payload)] with a payload that has no
    length, an integer or an atom, [parse_gen_message] returns the
    descriptor with the payload as it came, and [parse_gen_call] raises
    [TypeError] at [len(payload)] instead of returning the arity
    string. *)
Theorem unsized_payload_decoding (s r : value) :
  (forall z : Z,
     parse_gen_message (VTuple [gen_call_tag; VTuple [s; r]; VInt z]) node_name =
       Return (Descriptor (GenIncomingMessage_new s r (VInt z) node_name)) /\
     parse_gen_call py_str (VTuple [gen_call_tag; VTuple [s; r]; VInt z]) =
       Raise TypeError) /\
  (forall t : string,
     parse_gen_message (VTuple [gen_call_tag; VTuple [s; r]; VAtom t]) node_name =
       Return (Descriptor (GenIncomingMessage_new s r (VAtom t) node_name)) /\
     parse_gen_call py_str (VTuple [gen_call_tag; VTuple [s; r]; VAtom t]) =
       Raise TypeError).
Proof. repeat split; reflexivity. Qed.

(** C4: once the body has passed the arity check, a module that is not
    an atom is turned down with a string that ends in the rendering of
    the module, whatever the function is; with an atom for the module, a
    function that is not an atom is turned down with a string that ends
    in the rendering of the function. *)
Theorem non_atom_module_or_function
    (sr s r body call m f args gl : value) :
  unpack2 sr = Return (s, r) ->
  py_len body = Return 5 ->
  unpack5 body = Return (call, m, f, args, gl) ->
  (isinstance_Atom m = false ->
   parse_gen_call py_str (VTuple [gen_call_tag; sr; body]) =
     Return (Rejected ("Module must be an atom: " +:+ py_str m))) /\
  (isinstance_Atom m = true -> isinstance_Atom f = false ->
   parse_gen_call py_str (VTuple [gen_call_tag; sr; body]) =
     Return (Rejected ("Function must be an atom: " +:+ py_str f))).
Proof.
  intros Hsr Hlen Hbody.
  rewrite parse_gen_call_tagged, Hsr, Hlen. cbn. rewrite Hbody. cbn.
  split.
  - intros ->. reflexivity.
  - intros -> ->. reflexivity.
Qed.

(** C8: the first element of the body has no part in the outcome of
    [parse_gen_call]: two envelopes that differ in it alone have the
    same outcome, be it a string, an exception or a descriptor, for a
    body that is a tuple and for one that is a list. *)
Theorem call_marker_ignored (tag sr call1 call2 : value) (rest : list value) :
  parse_gen_call py_str (VTuple [tag; sr; VTuple (call1 :: rest)]) =
  parse_gen_call py_str (VTuple [tag; sr; VTuple (call2 :: rest)]) /\
  parse_gen_call py_str (VTuple [tag; sr; VList (call1 :: rest)]) =
  parse_gen_call py_str (VTuple [tag; sr; VList (call2 :: rest)]).
Proof.
  unfold parse_gen_call.
  destruct (not_gen_call_tag _) as [[|]|]; cbn; [easy| |easy].
  destruct (unpack2 sr) as [[s r]|]; cbn; [|easy].
  destruct rest as [|m [|f [|a [|g [|? ?]]]]]; cbn; easy.
Qed.

(** C10: [parse_gen_message] takes the body as it comes: with the tag in
    place and a second element that holds two values it returns the
    descriptor for every body, a well-formed call body included; and
    where it does not return a descriptor, [parse_gen_call] fails the
    same way, so that every envelope [parse_gen_call] has no objection
    to is one [parse_gen_message] returns a descriptor for. *)
Theorem parse_gen_message_ignores_body :
  (forall sr s r body : value,
     unpack2 sr = Return (s, r) ->
     parse_gen_message (VTuple [gen_call_tag; sr; body]) node_name =
       Return (Descriptor (GenIncomingMessage_new s r body node_name))) /\
  (forall (s r call args gl : value) (m f : string),
     parse_gen_message
       (VTuple [gen_call_tag; VTuple [s; r];
                VTuple [call; VAtom m; VAtom f; args; gl]]) node_name =
       Return (Descriptor
                 (GenIncomingMessage_new s r
                    (VTuple [call; VAtom m; VAtom f; args; gl]) node_name))) /\
  (forall (msg : value) (why : string),
     parse_gen_message msg node_name = Return (Rejected why) ->
     parse_gen_call py_str msg = Return (Rejected why)) /\
  (forall (msg : value) (e : exn),
     parse_gen_message msg node_name = Raise e ->
     parse_gen_call py_str msg = Raise e).
Proof.
  split; [|split; [|split]].
  - intros sr s r body Hsr. rewrite parse_gen_message_tagged, Hsr. reflexivity.
  - reflexivity.
  - intros msg why H.
    destruct msg as [| | | |items| | | | |]; try same_failure H.
    destruct (not_gen_call_tag items) as [[|]|] eqn:Htag.
    + unfold parse_gen_message in H. unfold parse_gen_call.
      rewrite Htag in *. same_failure H.
    + apply not_gen_call_tag_false in Htag as [rest ->].
      rewrite parse_gen_message_tagged in H. rewrite parse_gen_call_tagged.
      destruct rest as [|sr [|body [|? ?]]]; try discriminate H.
      destruct (unpack2 sr) as [[s r]|]; discriminate H.
    + unfold parse_gen_message in H. unfold parse_gen_call.
      rewrite Htag in *. same_failure H.
  - intros msg e H.
    destruct msg as [| | | |items| | | | |]; try discriminate H.
    destruct (not_gen_call_tag items) as [[|]|] eqn:Htag.
    + unfold parse_gen_message in H. rewrite Htag in H. discriminate H.
    + apply not_gen_call_tag_false in Htag as [rest ->].
      rewrite parse_gen_message_tagged in H. rewrite parse_gen_call_tagged.
      destruct rest as [|sr [|body [|? ?]]]; try same_failure H.
      destruct (unpack2 sr) as [[s r]|]; same_failure H.
    + unfold parse_gen_message in H. unfold parse_gen_call.
      rewrite Htag in *. same_failure H.
Qed.

End DecoderProperties.

(** C9 at the tuple [('rex', 1)] and at the list [['rex', 1]]. *)
Lemma wrong_tag_rejected_witness :
  (parse_gen_call str_sample (VTuple [VAtom "rex"; VInt 1]) =
     Return (Rejected "Only {$gen_call, _, _} messages allowed") /\
   parse_gen_message (VTuple [VAtom "rex"; VInt 1]) "py@127.0.0.1" =
     Return (Rejected "Only {$gen_call, _, _} messages allowed")) /\
  (parse_gen_call str_sample (VList [VAtom "rex"; VInt 1]) =
     Return (Rejected "Only {tuple} messages allowed") /\
   parse_gen_message (VList [VAtom "rex"; VInt 1]) "py@127.0.0.1" =
     Return (Rejected "Only {tuple} messages allowed")).
Proof.
  split.
  - apply (wrong_tag_rejected str_sample "py@127.0.0.1"
             (VTuple [VAtom "rex"; VInt 1]) (VAtom "rex") [VInt 1]);
      [reflexivity | discriminate].
  - apply (wrong_tag_rejected str_sample "py@127.0.0.1"
             (VList [VAtom "rex"; VInt 1]) (VAtom "rex") [VInt 1]);
      [reflexivity | discriminate].
Defined.

(** C4 with a [str] for the module and an integer for the function, and
    with a [str] for the function alone. *)
Lemma non_atom_module_or_function_witness :
  parse_gen_call str_sample
    (VTuple [gen_call_tag; VTuple [pid_sample; ref_sample];
             VTuple [VAtom "call"; VStr "lists"; VInt 7; VList []; pid_sample]]) =
    Return (Rejected "Module must be an atom: lists") /\
  parse_gen_call str_sample
    (VTuple [gen_call_tag; VTuple [pid_sample; ref_sample];
             VTuple [VAtom "call"; VAtom "lists"; VStr "reverse"; VList [];
                     pid_sample]]) =
    Return (Rejected "Function must be an atom: reverse").
Proof.
  split.
  - apply (proj1 (non_atom_module_or_function str_sample
                    (VTuple [pid_sample; ref_sample]) pid_sample ref_sample
                    (VTuple [VAtom "call"; VStr "lists"; VInt 7; VList [];
                             pid_sample])
                    (VAtom "call") (VStr "lists") (VInt 7) (VList []) pid_sample
                    eq_refl eq_refl eq_refl)).
    reflexivity.
  - apply (proj2 (non_atom_module_or_function str_sample
                    (VTuple [pid_sample; ref_sample]) pid_sample ref_sample
                    (VTuple [VAtom "call"; VAtom "lists"; VStr "reverse";
                             VList []; pid_sample])
                    (VAtom "call") (VAtom "lists") (VStr "reverse") (VList [])
                    pid_sample eq_refl eq_refl eq_refl)); reflexivity.
Defined.

(** C10 on an [is_auth] request, on a message that is no tuple, and on a
    tagged pair. *)
Lemma parse_gen_message_ignores_body_witness :
  parse_gen_message
    (VTuple [gen_call_tag; VTuple [pid_sample; ref_sample];
             VTuple [VAtom "is_auth"; VAtom "erl@127.0.0.1"]]) "py@127.0.0.1" =
    Return (Descriptor
              (GenIncomingMessage_new pid_sample ref_sample
                 (VTuple [VAtom "is_auth"; VAtom "erl@127.0.0.1"])
                 "py@127.0.0.1")) /\
  parse_gen_call str_sample (VInt 3) =
    Return (Rejected "Only {tuple} messages allowed") /\
  parse_gen_call str_sample (VTuple [gen_call_tag; VInt 3]) = Raise ValueError.
Proof.
  pose proof (parse_gen_message_ignores_body str_sample "py@127.0.0.1")
    as (Hbody & _ & Hrej & Hexn).
  split; [|split].
  - apply Hbody. reflexivity.
  - apply Hrej. reflexivity.
  - apply Hexn. reflexivity.
Defined.

(** ** The argument list of a call *)

(** C7: [get_args] returns the stored arguments themselves when they are a
    Python list, and the element list of the arguments when they are a
    [Term.List]; so a bare list and a [Term.List] around the same elements
    give the same list. *)
Theorem get_args_uniform (base : GenBase) (m f gl : value)
    (xs : list value) (tl : value) :
  get_args (mkGenIncomingCall base m f (VList xs) gl) = Return (VList xs) /\
  get_args (mkGenIncomingCall base m f (VTermList xs tl) gl) = Return (VList xs).
Proof. split; reflexivity. Qed.

(** Arguments that are neither have no [elements_]. *)
Lemma get_args_tuple (base : GenBase) (m f gl : value) (xs : list value) :
  get_args (mkGenIncomingCall base m f (VTuple xs) gl) = Raise AttributeError.
Proof. reflexivity. Qed.

(** ** The replies *)

Lemma alter_present (f : list request -> list request) (k : string)
    (w : registry) (reqs : list request) :
  w !! k = Some reqs -> alter f k w = <[k := f reqs]> w.
Proof.
  intros Hk. apply map_eq. intros j.
  destruct (decide (k = j)) as [<- | Hne].
  - rewrite lookup_alter_eq, lookup_insert_eq, Hk. reflexivity.
  - rewrite lookup_alter_ne, lookup_insert_ne by assumption. reflexivity.
Qed.

(** Without a node registered under the name of the descriptor, a reply
    raises [KeyError] and nothing is handed to the routing layer. *)
Lemma reply_unknown_node (self : GenBase) (local_pid result : value)
    (w : registry) :
  w !! node_name_ self = None ->
  reply self local_pid result w = (Raise KeyError, w).
Proof.
  intros H. unfold reply, mbind, effect_bind, all_nodes_getitem.
  rewrite H. reflexivity.
Qed.

Lemma reply_exit_unknown_node (self : GenBase) (local_pid reason : value)
    (w : registry) :
  w !! node_name_ self = None ->
  reply_exit self local_pid reason w = (Raise KeyError, w).
Proof.
  intros H. unfold reply_exit, mbind, effect_bind, all_nodes_getitem.
  rewrite H. reflexivity.
Qed.

(** C6: with the node of the descriptor registered, [reply] hands that
    node one [send] request and nothing else: from [local_pid], to the
    sender of the descriptor, with the pair of the descriptor's reference
    and the result as the message.  For a descriptor that
    [parse_gen_message] returned, the receiver and the first element of
    the message are the sender and the reference of the envelope. *)
Theorem reply_sends_once :
  (forall (self : GenBase) (local_pid result : value) (w : registry)
          (reqs : list request),
     w !! node_name_ self = Some reqs ->
     reply self local_pid result w =
       (Return tt,
        <[node_name_ self :=
            (reqs ++ [SendReq local_pid (sender_ self)
                        (VTuple [ref_ self; result])])%list]> w)) /\
  (forall (msg : value) (node_name : string) (d : GenIncomingMessage)
          (local_pid result : value) (w : registry) (reqs : list request),
     parse_gen_message msg node_name = Return (Descriptor d) ->
     w !! node_name = Some reqs ->
     exists sender_mref gcmsg msender mref,
       msg = VTuple [gen_call_tag; sender_mref; gcmsg] /\
       unpack2 sender_mref = Return (msender, mref) /\
       reply (gim_base d) local_pid result w =
         (Return tt,
          <[node_name :=
              (reqs ++ [SendReq local_pid msender
                          (VTuple [mref; result])])%list]> w)).
Proof.
  assert (Hreply : forall self local_pid result (w : registry) reqs,
            w !! node_name_ self = Some reqs ->
            reply self local_pid result w =
              (Return tt,
               <[node_name_ self :=
                   (reqs ++ [SendReq local_pid (sender_ self)
                               (VTuple [ref_ self; result])])%list]> w)).
  { intros self local_pid result w reqs Hw.
    unfold reply, mbind, effect_bind, all_nodes_getitem, Node_send.
    rewrite Hw, (alter_present _ _ _ _ Hw). reflexivity. }
  split; [exact Hreply|].
  intros msg node_name d local_pid result w reqs Hd Hw.
  apply parse_gen_message_inv in Hd as (sr & body & s & r & -> & Hsr & ->).
  exists sr, body, s, r. repeat split; [exact Hsr|].
  apply (Hreply (gim_base (GenIncomingMessage_new s r body node_name))).
  exact Hw.
Qed.

(** C5: with the node of the descriptor registered and a sender that has a
    node with a text, [reply_exit] hands the node of the descriptor one
    [dist_command] request and nothing else: its message is the tuple of
    ['monitor_p_exit'], [local_pid], the sender and the reference of the
    descriptor and the reason, and its receiving node is the text of the
    sender's node. *)
Theorem reply_exit_directs_once (self : GenBase) (local_pid reason : value)
    (w : registry) (reqs : list request) (node text : value) :
  w !! node_name_ self = Some reqs ->
  getattr (sender_ self) "node_" = Return node ->
  getattr node "text_" = Return text ->
  reply_exit self local_pid reason w =
    (Return tt,
     <[node_name_ self :=
         (reqs ++ [DistCommandReq text
                     (VTuple [VStr "monitor_p_exit"; local_pid; sender_ self;
                              ref_ self; reason])])%list]> w).
Proof.
  intros Hw Hnode Htext.
  unfold reply_exit, mbind, effect_bind, all_nodes_getitem, lift,
    Node_dist_command.
  rewrite Hw, Hnode, Htext, (alter_present _ _ _ _ Hw). reflexivity.
Qed.

(** A sender without a node: the node of the descriptor is looked up, and
    then [AttributeError] is raised and nothing is handed over. *)
Lemma reply_exit_no_node_attr (self : GenBase) (local_pid reason : value)
    (w : registry) (reqs : list request) :
  w !! node_name_ self = Some reqs ->
  getattr (sender_ self) "node_" = Raise AttributeError ->
  reply_exit self local_pid reason w = (Raise AttributeError, w).
Proof.
  intros Hw Hnode.
  unfold reply_exit, mbind, effect_bind, all_nodes_getitem, lift.
  rewrite Hw, Hnode. reflexivity.
Qed.

(** C6 on the sample context, and on the descriptor of an [is_auth]
    request. *)
Lemma reply_sends_once_witness :
  reply context_sample (VPid (VAtom "py@127.0.0.1") 1 0 0) (VAtom "ok")
    registry_sample =
    (Return tt,
     <["py@127.0.0.1" :=
         [SendReq (VPid (VAtom "py@127.0.0.1") 1 0 0) pid_sample
            (VTuple [ref_sample; VAtom "ok"])]]> registry_sample) /\
  exists sender_mref gcmsg msender mref,
    VTuple [gen_call_tag; VTuple [pid_sample; ref_sample];
            VTuple [VAtom "is_auth"; VAtom "erl@127.0.0.1"]] =
      VTuple [gen_call_tag; sender_mref; gcmsg] /\
    unpack2 sender_mref = Return (msender, mref) /\
    reply context_sample (VPid (VAtom "py@127.0.0.1") 1 0 0) (VAtom "yes")
      registry_sample =
      (Return tt,
       <["py@127.0.0.1" :=
           [SendReq (VPid (VAtom "py@127.0.0.1") 1 0 0) msender
              (VTuple [mref; VAtom "yes"])]]> registry_sample).
Proof.
  split.
  - apply (proj1 reply_sends_once context_sample _ _ registry_sample []).
    reflexivity.
  - apply (proj2 reply_sends_once
             (VTuple [gen_call_tag; VTuple [pid_sample; ref_sample];
                      VTuple [VAtom "is_auth"; VAtom "erl@127.0.0.1"]])
             "py@127.0.0.1"
             (GenIncomingMessage_new pid_sample ref_sample
                (VTuple [VAtom "is_auth"; VAtom "erl@127.0.0.1"])
                "py@127.0.0.1")
             (VPid (VAtom "py@127.0.0.1") 1 0 0) (VAtom "yes")
             registry_sample []); reflexivity.
Defined.

(** C5 on the sample context: the directive goes through the node
    [py@127.0.0.1] of the descriptor and names [erl@127.0.0.1], the node of
    the sender, as the receiving node. *)
Lemma reply_exit_directs_once_witness :
  reply_exit context_sample (VPid (VAtom "py@127.0.0.1") 1 0 0)
    (VAtom "badarg") registry_sample =
    (Return tt,
     <["py@127.0.0.1" :=
         [DistCommandReq (VStr "erl@127.0.0.1")
            (VTuple [VStr "monitor_p_exit"; VPid (VAtom "py@127.0.0.1") 1 0 0;
                     pid_sample; ref_sample; VAtom "badarg"])]]>
       registry_sample).
Proof.
  apply (reply_exit_directs_once context_sample _ _ registry_sample []
           (VAtom "erl@127.0.0.1") (VStr "erl@127.0.0.1")); reflexivity.
Defined.

(** * Further properties of the decoders *)

(** ** The builtins *)

Lemma getattr_raises (v : value) (name : string) (e : exn) :
  getattr v name = Raise e -> e = AttributeError.
Proof.
  destruct v; cbn;
    repeat match goal with
           | |- context [if ?b then _ else _] => destruct b
           end; congruence.
Qed.

Lemma py_iter_raises (v : value) (e : exn) :
  py_iter v = Raise e -> e = TypeError.
Proof. destruct v; cbn; congruence. Qed.

Lemma py_len_raises (v : value) (e : exn) :
  py_len v = Raise e -> e = TypeError.
Proof. destruct v; cbn; congruence. Qed.

Lemma unpack2_raises (v : value) (e : exn) :
  unpack2 v = Raise e -> e = ValueError \/ e = TypeError.
Proof.
  unfold unpack2. destruct (py_iter v) as [xs|e'] eqn:Hiter; cbn.
  - destruct xs as [|a [|b [|? ?]]]; intros H;
      solve [discriminate H | injection H as <-; auto].
  - intros H. injection H as <-. right. exact (py_iter_raises _ _ Hiter).
Qed.

Lemma length_list_ascii_of_string (s : string) :
  length (list_ascii_of_string s) = String.length s.
Proof. induction s as [|c s IH]; cbn; [reflexivity | now rewrite IH]. Qed.

(** What has a length is iterable, and yields as many values. *)
Lemma py_len_iter (v : value) (n : nat) :
  py_len v = Return n ->
  exists xs, py_iter v = Return xs /\ length xs = n.
Proof.
  destruct v; cbn; try discriminate; intros H; injection H as <-.
  - eexists. split; [reflexivity|].
    now rewrite length_map, length_list_ascii_of_string.
  - eexists. split; [reflexivity|]. now rewrite length_map.
  - eexists. split; reflexivity.
  - eexists. split; reflexivity.
Qed.

(** ** Outcomes of the decoders *)

Section DecoderOutcomes.

Variable py_str : value -> string.
Variable node_name : string.

(** X1: [parse_gen_message] returns a descriptor for exactly the triples
    that start with the atom ['$gen_call'] and whose second element holds
    two values; the descriptor then has the first of them as sender, the
    second as reference, the third element of the triple as message and
    the [node_name] argument as node name. *)
Theorem parse_gen_message_descriptor_iff (msg : value)
    (d : GenIncomingMessage) :
  parse_gen_message msg node_name = Return (Descriptor d) <->
  exists sender_mref gcmsg msender mref,
    msg = VTuple [gen_call_tag; sender_mref; gcmsg] /\
    unpack2 sender_mref = Return (msender, mref) /\
    d = {| gim_base := {| node_name_ := node_name;
                          sender_ := msender;
                          ref_ := mref |};
           message_ := gcmsg |}.
Proof.
  split.
  - apply parse_gen_message_inv.
  - intros (sr & body & s & r & -> & Hsr & ->).
    rewrite parse_gen_message_tagged, Hsr. reflexivity.
Qed.

Lemma parse_gen_call_raises (msg : value) (e : exn) :
  parse_gen_call py_str msg = Raise e ->
  (msg = VTuple [] /\ e = IndexError) \/
  (exists rest, msg = VTuple (gen_call_tag :: rest) /\
                (e = ValueError \/ e = TypeError)).
Proof.
  intros H. destruct msg as [| | | |items| | | | |]; try discriminate H.
  destruct items as [|x rest]; [injection H as <-; auto|].
  right.
  destruct (not_gen_call_tag (x :: rest)) as [[|]|] eqn:Htag.
  - unfold parse_gen_call in H. rewrite Htag in H. discriminate H.
  - apply not_gen_call_tag_false in Htag as [rest' Heq].
    injection Heq as -> ->. exists rest'. split; [reflexivity|].
    rewrite parse_gen_call_tagged in H.
    destruct rest' as [|sr [|body [|? ?]]]; try (injection H as <-; auto).
    destruct (unpack2 sr) as [[s r]|e'] eqn:Hsr;
      [|injection H as <-; exact (unpack2_raises _ _ Hsr)].
    destruct (py_len body) as [n|e'] eqn:Hlen;
      [|injection H as <-; right; exact (py_len_raises _ _ Hlen)].
    cbn in H. destruct (Nat.eqb_spec n 5) as [->|]; [|discriminate H].
    destruct (py_len_iter _ _ Hlen) as (xs & Hxs & Hl).
    unfold unpack5 in H. rewrite Hxs in H.
    destruct xs as [|c [|m [|f [|a [|g [|? ?]]]]]]; try discriminate Hl.
    cbn in H.
    destruct (isinstance_Atom m); [|discriminate H].
    destruct (isinstance_Atom f); [|discriminate H].
    injection H as <-. auto.
  - destruct x; discriminate Htag.
Qed.

Lemma parse_gen_message_raises_only (msg : value) (e : exn) :
  parse_gen_message msg node_name = Raise e ->
  (msg = VTuple [] /\ e = IndexError) \/
  (exists rest, msg = VTuple (gen_call_tag :: rest) /\
                (e = ValueError \/ e = TypeError)).
Proof.
  intros H. destruct msg as [| | | |items| | | | |]; try discriminate H.
  destruct items as [|x rest]; [injection H as <-; auto|].
  right.
  destruct (not_gen_call_tag (x :: rest)) as [[|]|] eqn:Htag.
  - unfold parse_gen_message in H. rewrite Htag in H. discriminate H.
  - apply not_gen_call_tag_false in Htag as [rest' Heq].
    injection Heq as -> ->. exists rest'. split; [reflexivity|].
    rewrite parse_gen_message_tagged in H.
    destruct rest' as [|sr [|body [|? ?]]]; try (injection H as <-; auto).
    destruct (unpack2 sr) as [[s r]|e'] eqn:Hsr; [discriminate H|].
    injection H as <-. exact (unpack2_raises _ _ Hsr).
  - destruct x; discriminate Htag.
Qed.

(** X2: a decoder raises only on the empty tuple, and then [IndexError],
    or on a tuple that starts with the atom ['$gen_call'], and then
    [ValueError] or [TypeError].  A message that is no tuple and a tuple
    with another first element never make a decoder raise, and no decoder
    raises [AttributeError] or [KeyError]. *)
Theorem decoders_raise_only_when_tagged (msg : value) (e : exn) :
  parse_gen_message msg node_name = Raise e \/
  parse_gen_call py_str msg = Raise e ->
  (msg = VTuple [] /\ e = IndexError) \/
  (exists rest, msg = VTuple (gen_call_tag :: rest) /\
                (e = ValueError \/ e = TypeError)).
Proof.
  intros [H | H].
  - exact (parse_gen_message_raises_only _ _ H).
  - exact (parse_gen_call_raises _ _ H).
Qed.

(** X3: [parse_gen_call] answers with the arity string for exactly the
    triples that start with the atom ['$gen_call'], whose second element
    holds two values and whose third element has a length other than
    five. *)
Theorem arity_rejection_iff (msg : value) :
  parse_gen_call py_str msg =
    Return (Rejected "Expecting a 5-tuple (with a 'call' atom)") <->
  exists sender_mref call_mfa_gl msender mref n,
    msg = VTuple [gen_call_tag; sender_mref; call_mfa_gl] /\
    unpack2 sender_mref = Return (msender, mref) /\
    py_len call_mfa_gl = Return n /\
    n ≠ 5.
Proof.
  split.
  - intros H. destruct msg as [| | | |items| | | | |]; try discriminate H.
    assert (exists rest, items = gen_call_tag :: rest) as [rest ->].
    { apply not_gen_call_tag_false. unfold parse_gen_call in H.
      destruct (not_gen_call_tag items) as [[|]|]; done. }
    rewrite parse_gen_call_tagged in H.
    destruct rest as [|sr [|body [|? ?]]]; try discriminate H.
    destruct (unpack2 sr) as [[s r]|] eqn:Hsr; [|discriminate H].
    destruct (py_len body) as [n|] eqn:Hlen; [|discriminate H].
    cbn in H. destruct (Nat.eqb_spec n 5) as [->|Hn].
    + cbn in H.
      destruct (unpack5 body) as [[[[[c m] f] a] g]|]; [|discriminate H].
      cbn in H. destruct (isinstance_Atom m); [|discriminate H].
      destruct (isinstance_Atom f); discriminate H.
    + exists sr, body, s, r, n. auto.
  - intros (sr & body & s & r & n & -> & Hsr & Hlen & Hn).
    exact (parse_gen_call_arity py_str sr s r body n Hsr Hlen Hn).
Qed.

(** X4: the decoders do not tell a list from a tuple in the second and
    third place of the envelope: with the same elements both give the same
    outcome. *)
Theorem inner_lists_as_tuples (tag body : value) (pair items : list value) :
  parse_gen_message (VTuple [tag; VList pair; body]) node_name =
    parse_gen_message (VTuple [tag; VTuple pair; body]) node_name /\
  parse_gen_call py_str (VTuple [tag; VList pair; VList items]) =
    parse_gen_call py_str (VTuple [tag; VTuple pair; VTuple items]).
Proof. split; reflexivity. Qed.

(** X5: a third element that is a [str] of five characters, or [bytes] of
    five bytes, passes the arity check and is turned down for its second
    character, or byte, as a module that is no atom. *)
Theorem five_character_body (sr s r : value) (c0 c1 c2 c3 c4 : ascii)
    (b0 b1 b2 b3 b4 : byte) :
  unpack2 sr = Return (s, r) ->
  parse_gen_call py_str
    (VTuple [gen_call_tag; sr;
             VStr (String c0 (String c1 (String c2 (String c3
                    (String c4 EmptyString)))))]) =
    Return (Rejected ("Module must be an atom: "
                      +:+ py_str (VStr (String c1 EmptyString)))) /\
  parse_gen_call py_str
    (VTuple [gen_call_tag; sr; VBytes [b0; b1; b2; b3; b4]]) =
    Return (Rejected ("Module must be an atom: "
                      +:+ py_str (VInt (Z.of_N (Byte.to_N b1))))).
Proof.
  intros Hsr. rewrite !parse_gen_call_tagged, Hsr. split; reflexivity.
Qed.

End DecoderOutcomes.

(** X2 at the empty tuple. *)
Lemma decoders_raise_only_when_tagged_witness :
  (VTuple [] = VTuple [] /\ IndexError = IndexError) \/
  (exists rest, VTuple [] = VTuple (gen_call_tag :: rest) /\
                (IndexError = ValueError \/ IndexError = TypeError)).
Proof.
  apply (decoders_raise_only_when_tagged str_sample "py@127.0.0.1"
           (VTuple []) IndexError).
  left. reflexivity.
Defined.

(** X5 at the bodies ['hello'] and [b'hello']. *)
Lemma five_character_body_witness :
  parse_gen_call str_sample
    (VTuple [gen_call_tag; VTuple [pid_sample; ref_sample]; VStr "hello"]) =
    Return (Rejected "Module must be an atom: e") /\
  parse_gen_call str_sample
    (VTuple [gen_call_tag; VTuple [pid_sample; ref_sample];
             VBytes [x68; x65; x6c; x6c; x6f]]) =
    Return (Rejected "Module must be an atom: <term>").
Proof.
  apply (five_character_body str_sample
           (VTuple [pid_sample; ref_sample]) pid_sample ref_sample
           "h"%char "e"%char "l"%char "l"%char "o"%char x68 x65 x6c x6c x6f).
  reflexivity.
Defined.

(** * Further properties of the descriptors *)

(** X10: [get_args] returns a value for exactly the arguments that are a
    Python list or a [Term.List], and the value is the list of their
    elements; for all other arguments, a tuple or a [str] among them, it
    raises [AttributeError]. *)
Theorem get_args_list_or_term_list (self : GenIncomingCall) :
  (forall v : value,
     get_args self = Return v <->
     exists xs, v = VList xs /\
                (args_ self = VList xs \/
                 exists tl, args_ self = VTermList xs tl)) /\
  (forall e : exn, get_args self = Raise e -> e = AttributeError).
Proof.
  destruct self as [base m f args gl]. unfold get_args. cbn [args_].
  split.
  - intros v. split.
    + destruct args; cbn; intros H; try discriminate H; injection H as <-;
        eauto.
    + intros (xs & -> & [-> | [tl ->]]); reflexivity.
  - intros e. destruct (isinstance_list args); [discriminate|].
    apply getattr_raises.
Qed.

(** X11: [get_mod_str] and [get_fun_str] return a value for exactly the
    descriptors whose module, or function, is an atom, and the value is
    the text of the atom; otherwise they raise [AttributeError]. *)
Theorem get_mod_fun_str_atoms (self : GenIncomingCall) :
  (forall v : value,
     get_mod_str self = Return v <->
     exists t, mod_ self = VAtom t /\ v = VStr t) /\
  (forall v : value,
     get_fun_str self = Return v <->
     exists t, fun_ self = VAtom t /\ v = VStr t) /\
  (forall e : exn,
     get_mod_str self = Raise e \/ get_fun_str self = Raise e ->
     e = AttributeError).
Proof.
  destruct self as [base m f args gl]. unfold get_mod_str, get_fun_str.
  cbn [mod_ fun_]. split; [|split].
  - intros v. split.
    + destruct m; cbn; intros H; try discriminate H; injection H as <-; eauto.
    + intros (t & -> & ->). reflexivity.
  - intros v. split.
    + destruct f; cbn; intros H; try discriminate H; injection H as <-; eauto.
    + intros (t & -> & ->). reflexivity.
  - intros e [H | H]; exact (getattr_raises _ _ _ H).
Qed.

Lemma append_suffix_inj (a b : string) (c : ascii) :
  a +:+ String c EmptyString = b +:+ String c EmptyString -> a = b.
Proof.
  revert b. induction a as [|x a IH]; intros [|y b] H; cbn in H.
  - reflexivity.
  - injection H as _ H. destruct b; discriminate H.
  - injection H as _ H. destruct a; discriminate H.
  - injection H as -> H. f_equal. exact (IH b H).
Qed.

(** X12: the rendering of a plain message shows its message and nothing
    else: two descriptors render the same exactly when their messages do,
    whatever their senders, references and node names are. *)
Theorem GenIncomingMessage_str_message_only (py_str : value -> string)
    (d1 d2 : GenIncomingMessage) :
  GenIncomingMessage_str py_str d1 = GenIncomingMessage_str py_str d2 <->
  py_str (message_ d1) = py_str (message_ d2).
Proof.
  unfold GenIncomingMessage_str. split.
  - intros H. apply append_suffix_inj in H.
    exact (String.app_inj _ _ _ H).
  - intros ->. reflexivity.
Qed.

(** * Further properties of the replies *)

Lemma reply_registered (self : GenBase) (local_pid result : value)
    (w : registry) (reqs : list request) :
  w !! node_name_ self = Some reqs ->
  reply self local_pid result w =
    (Return tt,
     <[node_name_ self :=
         (reqs ++ [SendReq local_pid (sender_ self)
                     (VTuple [ref_ self; result])])%list]> w).
Proof.
  intros Hw. unfold reply, mbind, effect_bind, all_nodes_getitem, Node_send.
  rewrite Hw, (alter_present _ _ _ _ Hw). reflexivity.
Qed.

(** X6: nothing keeps a descriptor from being answered twice: two calls of
    [reply] in a row hand the node two [send] requests, in the order of
    the calls, behind the requests it already had. *)
Theorem reply_twice (self : GenBase) (pid1 result1 pid2 result2 : value)
    (w : registry) (reqs : list request) :
  w !! node_name_ self = Some reqs ->
  (reply self pid1 result1 ≫= fun _ => reply self pid2 result2) w =
    (Return tt,
     <[node_name_ self :=
         (reqs ++ [SendReq pid1 (sender_ self) (VTuple [ref_ self; result1]);
                   SendReq pid2 (sender_ self) (VTuple [ref_ self; result2])]
         )%list]> w).
Proof.
  intros Hw. unfold mbind at 1, effect_bind.
  rewrite (reply_registered _ _ _ _ _ Hw).
  rewrite (reply_registered self pid2 result2 _ _ (lookup_insert_eq _ _ _)).
  rewrite insert_insert_eq, <- app_assoc. reflexivity.
Qed.



(** X9: a reply registers no node and removes none, leaves the requests of
    every other node as they are, and keeps the requests the node of the
    descriptor already had, in their order, with at most one request
    behind them. *)
Theorem replies_only_append (self : GenBase) (local_pid x : value)
    (w : registry) (k : string) :
  let w1 := (reply self local_pid x w).2 in
  let w2 := (reply_exit self local_pid x w).2 in
  (w !! k = None -> w1 !! k = None /\ w2 !! k = None) /\
  (forall reqs : list request,
     w !! k = Some reqs ->
     exists new1 new2 : list request,
       w1 !! k = Some (reqs ++ new1)%list /\
       w2 !! k = Some (reqs ++ new2)%list /\
       length new1 <= 1 /\ length new2 <= 1 /\
       (k ≠ node_name_ self -> new1 = [] /\ new2 = [])).
Proof.
  cbn zeta.
  unfold reply, reply_exit, mbind, effect_bind, all_nodes_getitem, lift,
    Node_send, Node_dist_command.
  destruct (w !! node_name_ self) as [own|] eqn:Hw.
  2:{ cbn. split; [auto|]. intros reqs Hk. exists [], [].
      rewrite app_nil_r. cbn. repeat split; auto. }
  assert (Hexit : exists new2 : list request,
             length new2 <= 1 /\
             forall k', (match getattr (sender_ self) "node_" with
                         | Return node =>
                             match getattr node "text_" with
                             | Return text =>
                                 (Return tt,
                                  alter (fun reqs =>
                                           (reqs ++ [DistCommandReq text
                                              (VTuple [VStr "monitor_p_exit";
                                                       local_pid; sender_ self;
                                                       ref_ self; x])])%list)
                                    (node_name_ self) w)
                             | Raise e => (Raise e, w)
                             end
                         | Raise e => (Raise e, w)
                         end).2 !! k' =
                        if decide (node_name_ self = k')
                        then Some (own ++ new2)%list
                        else w !! k').
  { destruct (getattr (sender_ self) "node_") as [node|];
      [destruct (getattr node "text_") as [text|]|].
    - eexists. split; [|intros k'; cbn [snd]; rewrite lookup_alter, Hw;
                        reflexivity]. cbn. lia.
    - exists []. split; [cbn; lia|]. intros k'. cbn [snd].
      case_decide; [subst k'; now rewrite Hw, app_nil_r | done].
    - exists []. split; [cbn; lia|]. intros k'. cbn [snd].
      case_decide; [subst k'; now rewrite Hw, app_nil_r | done]. }
  destruct Hexit as (new2 & Hlen2 & Hexit).
  cbn [snd]. split.
  - intros Hk. rewrite Hexit, lookup_alter.
    case_decide; [subst k; congruence | done].
  - intros reqs Hk.
    exists (if decide (node_name_ self = k)
            then [SendReq local_pid (sender_ self) (VTuple [ref_ self; x])]
            else []),
           (if decide (node_name_ self = k) then new2 else []).
    rewrite Hexit, lookup_alter.
    case_decide as Hdec.
    + subst k. rewrite Hw in *. injection Hk as <-. cbn.
      repeat split; try done; try lia.
    + rewrite Hk, app_nil_r. cbn. repeat split; try done; lia.
Qed.

(** X13: for a descriptor that [parse_gen_message] returned, [reply_exit]
    sends the exit with the sender and the reference of the envelope in
    it, through the node the envelope was decoded for, to the node the
    sender of the envelope is on. *)
Theorem decode_then_reply_exit (msg : value) (node_name : string)
    (d : GenIncomingMessage) (local_pid reason : value) (w : registry)
    (reqs : list request) (node text : value) :
  parse_gen_message msg node_name = Return (Descriptor d) ->
  w !! node_name = Some reqs ->
  getattr (sender_ (gim_base d)) "node_" = Return node ->
  getattr node "text_" = Return text ->
  exists sender_mref gcmsg msender mref,
    msg = VTuple [gen_call_tag; sender_mref; gcmsg] /\
    unpack2 sender_mref = Return (msender, mref) /\
    reply_exit (gim_base d) local_pid reason w =
      (Return tt,
       <[node_name :=
           (reqs ++ [DistCommandReq text
                       (VTuple [VStr "monitor_p_exit"; local_pid; msender;
                                mref; reason])])%list]> w).
Proof.
  intros Hd Hw Hnode Htext.
  apply parse_gen_message_inv in Hd as (sr & body & s & r & -> & Hsr & ->).
  exists sr, body, s, r. repeat split; [exact Hsr|].
  cbn in Hnode.
  unfold reply_exit, mbind, effect_bind, all_nodes_getitem, lift,
    Node_dist_command, GenIncomingMessage_new, GenBase_init.
  cbn [gim_base node_name_ sender_ ref_].
  rewrite Hw, Hnode, Htext, (alter_present _ _ _ _ Hw). reflexivity.
Qed.

(** X6 on the sample context: an answer, and a second one. *)
Lemma reply_twice_witness :
  (reply context_sample (VAtom "rex") (VInt 1) ≫=
     fun _ => reply context_sample (VAtom "rex") (VInt 2)) registry_sample =
    (Return tt,
     <["py@127.0.0.1" :=
         [SendReq (VAtom "rex") pid_sample (VTuple [ref_sample; VInt 1]);
          SendReq (VAtom "rex") pid_sample (VTuple [ref_sample; VInt 2])]]>
       registry_sample).
Proof.
  apply (reply_twice context_sample (VAtom "rex") (VInt 1) (VAtom "rex")
           (VInt 2) registry_sample []).
  reflexivity.
Defined.



(** X13 on an [is_auth] request from [erl@127.0.0.1]. *)
Lemma decode_then_reply_exit_witness :
  exists sender_mref gcmsg msender mref,
    VTuple [gen_call_tag; VTuple [pid_sample; ref_sample];
            VTuple [VAtom "is_auth"; VAtom "erl@127.0.0.1"]] =
      VTuple [gen_call_tag; sender_mref; gcmsg] /\
    unpack2 sender_mref = Return (msender, mref) /\
    reply_exit context_sample (VAtom "rex") (VAtom "noproc") registry_sample =
      (Return tt,
       <["py@127.0.0.1" :=
           [DistCommandReq (VStr "erl@127.0.0.1")
              (VTuple [VStr "monitor_p_exit"; VAtom "rex"; msender; mref;
                       VAtom "noproc"])]]> registry_sample).
Proof.
  apply (decode_then_reply_exit
           (VTuple [gen_call_tag; VTuple [pid_sample; ref_sample];
                    VTuple [VAtom "is_auth"; VAtom "erl@127.0.0.1"]])
           "py@127.0.0.1"
           (GenIncomingMessage_new pid_sample ref_sample
              (VTuple [VAtom "is_auth"; VAtom "erl@127.0.0.1"]) "py@127.0.0.1")
           (VAtom "rex") (VAtom "noproc") registry_sample []
           (VAtom "erl@127.0.0.1") (VStr "erl@127.0.0.1")); reflexivity.
Defined.

(** X14: on an envelope that [parse_gen_message] returns a descriptor for,
    [parse_gen_call] has four outcomes and no other: the arity string, the
    string for a module that is no atom, the string for a function that is
    no atom, and [TypeError]. *)
Theorem parse_gen_call_on_accepted (py_str : value -> string)
    (node_name : string) (msg : value) (d : GenIncomingMessage) :
  parse_gen_message msg node_name = Return (Descriptor d) ->
  parse_gen_call py_str msg =
    Return (Rejected "Expecting a 5-tuple (with a 'call' atom)") \/
  (exists m, isinstance_Atom m = false /\
             parse_gen_call py_str msg =
               Return (Rejected ("Module must be an atom: " +:+ py_str m))) \/
  (exists f, isinstance_Atom f = false /\
             parse_gen_call py_str msg =
               Return (Rejected ("Function must be an atom: " +:+ py_str f))) \/
  parse_gen_call py_str msg = Raise TypeError.
Proof.
  intros Hd.
  apply parse_gen_message_inv in Hd as (sr & body & s & r & -> & Hsr & _).
  rewrite parse_gen_call_tagged, Hsr.
  destruct (py_len body) as [n|e] eqn:Hlen.
  2:{ rewrite (py_len_raises _ _ Hlen). auto. }
  cbn. destruct (Nat.eqb_spec n 5) as [->|Hn]; [|auto].
  destruct (py_len_iter _ _ Hlen) as (xs & Hxs & Hl).
  unfold unpack5. rewrite Hxs.
  destruct xs as [|c [|m [|f [|a [|g [|? ?]]]]]]; try discriminate Hl.
  cbn. destruct (isinstance_Atom m) eqn:Hm; cbn; [|eauto].
  destruct (isinstance_Atom f) eqn:Hf; cbn; [auto|]. eauto 6.
Qed.

(** X14 on an [is_auth] request, which has a body of two elements. *)
Lemma parse_gen_call_on_accepted_witness :
  parse_gen_call str_sample
    (VTuple [gen_call_tag; VTuple [pid_sample; ref_sample];
             VTuple [VAtom "is_auth"; VAtom "erl@127.0.0.1"]]) =
    Return (Rejected "Expecting a 5-tuple (with a 'call' atom)") \/
  (exists m, isinstance_Atom m = false /\
             parse_gen_call str_sample
               (VTuple [gen_call_tag; VTuple [pid_sample; ref_sample];
                        VTuple [VAtom "is_auth"; VAtom "erl@127.0.0.1"]]) =
               Return (Rejected ("Module must be an atom: " +:+ str_sample m))) \/
  (exists f, isinstance_Atom f = false /\
             parse_gen_call str_sample
               (VTuple [gen_call_tag; VTuple [pid_sample; ref_sample];
                        VTuple [VAtom "is_auth"; VAtom "erl@127.0.0.1"]]) =
               Return (Rejected ("Function must be an atom: " +:+ str_sample f))) \/
  parse_gen_call str_sample
    (VTuple [gen_call_tag; VTuple [pid_sample; ref_sample];
             VTuple [VAtom "is_auth"; VAtom "erl@127.0.0.1"]]) = Raise TypeError.
Proof.
  apply (parse_gen_call_on_accepted str_sample "py@127.0.0.1"
           (VTuple [gen_call_tag; VTuple [pid_sample; ref_sample];
                    VTuple [VAtom "is_auth"; VAtom "erl@127.0.0.1"]])
           (GenIncomingMessage_new pid_sample ref_sample
              (VTuple [VAtom "is_auth"; VAtom "erl@127.0.0.1"]) "py@127.0.0.1")).
  reflexivity.
Defined.
